(** * concopt: standard atmosphere, flight condition and airspeed conversions

    A shallow embedding of [src/concopt/atmosphere.py], [src/concopt/condition.py]
    and [src/concopt/conditions.py].  Physical quantities are real numbers in SI
    base units (the pint layer only converts units); numpy arrays are lists of
    reals with their shape; a method call is a function from the object before
    the call to the object after it together with its outcome, so that the
    mutations a Python method performs before raising stay visible. *)

From Stdlib Require Import Reals Lra Lia List Bool.
Import ListNotations.
Open Scope R_scope.

(** ** Exceptions and the object-state monad *)

Inductive pyexc : Type :=
| ValueError
| TypeError
| AttributeError
| IndexError.

Inductive exc (A : Type) : Type :=
| Ok (a : A)
| Err (e : pyexc).
Arguments Ok {A} a.
Arguments Err {A} e.

Definition ebind {A B} (r : exc A) (k : A -> exc B) : exc B :=
  match r with Ok a => k a | Err e => Err e end.
Notation "x <-? r ;; k" := (ebind r (fun x => k))
  (at level 61, r at next level, right associativity).

(** A method of an object of class [S]: the object after the call (also when
    the call raised) and the returned value or the raised exception. *)
Definition PyM (S A : Type) := S -> S * exc A.

Definition ret {S A} (a : A) : PyM S A := fun s => (s, Ok a).
Definition raise {S A} (e : pyexc) : PyM S A := fun s => (s, Err e).
Definition bind {S A B} (m : PyM S A) (k : A -> PyM S B) : PyM S B :=
  fun s => match m s with
           | (s', Ok a) => k a s'
           | (s', Err e) => (s', Err e)
           end.
Definition get {S} : PyM S S := fun s => (s, Ok s).
Definition modify {S} (f : S -> S) : PyM S unit := fun s => (f s, Ok tt).
Definition lift_exc {S A} (r : exc A) : PyM S A := fun s => (s, r).

Notation "x <- m ;; k" := (bind m (fun x => k))
  (at level 61, m at next level, right associativity).
Notation "m ;;; k" := (bind m (fun _ => k))
  (at level 61, right associativity).

(** ** numpy arrays *)

(** A Python scalar, or a numpy array given by its shape and its data in
    row-major order. *)
Inductive nd : Type :=
| NScalar (x : R)
| NArr (shape : list nat) (data : list R).

Definition nd_data (a : nd) : list R :=
  match a with NScalar x => [x] | NArr _ d => d end.

Definition nd_shape (a : nd) : list nat :=
  match a with NScalar _ => [] | NArr sh _ => sh end.

(** [np.size]. *)
Definition np_size (a : nd) : nat := length (nd_data a).

(** [len(np.shape(a))]. *)
Definition ndim (a : nd) : nat := length (nd_shape a).

(** [np.atleast_1d]. *)
Definition atleast_1d (a : nd) : nd :=
  match a with
  | NScalar x => NArr [1%nat] [x]
  | NArr [] d => NArr [1%nat] d
  | NArr sh d => NArr sh d
  end.

(** Elementwise map, keeping the shape. *)
Definition nd_map (f : R -> R) (a : nd) : nd :=
  match a with NScalar x => NScalar (f x) | NArr sh d => NArr sh (map f d) end.

Fixpoint zip_with {A B C} (f : A -> B -> C) (xs : list A) (ys : list B) : list C :=
  match xs, ys with
  | x :: xs', y :: ys' => f x y :: zip_with f xs' ys'
  | _, _ => []
  end.

(** numpy broadcasting of a binary elementwise operation on 1-D operands:
    equal sizes, or one operand of size one; otherwise numpy raises. *)
Definition bcast2 {A B C} (dA : A) (dB : B) (f : A -> B -> C)
    (xs : list A) (ys : list B) : exc (list C) :=
  if Nat.eqb (length xs) (length ys) then Ok (zip_with f xs ys)
  else if Nat.eqb (length xs) 1 then Ok (map (f (hd dA xs)) ys)
  else if Nat.eqb (length ys) 1 then Ok (map (fun x => f x (hd dB ys)) xs)
  else Err ValueError.

Definition bc := @bcast2 R R R 0 0.

Definition Rltb (x y : R) : bool := if Rlt_dec x y then true else false.
Definition Rleb (x y : R) : bool := if Rle_dec x y then true else false.

(** ** Constants ([concopt/constants.py]) *)

Definition g : R := 9.80665.             (* m/s^2 *)
Definition R_star : R := 287.05287.      (* J/(K kg) *)
Definition gamma : R := 1.4.
Definition R_earth : R := 6356766.       (* m *)

(** One row of the standard-atmosphere table: layer base geopotential height,
    base temperature, temperature gradient and base pressure. *)
Record layer_row : Type := mk_layer_row {
  H_base : R;
  T_base : R;
  T_grad : R;
  p_base : R
}.

Definition row0 : layer_row := mk_layer_row 0 0 0 0.

(** Modelled from the spec: [data/atmosphere.csv], read by
    [AtmosphereConstants], is not part of the sources.  The spec describes an
    8-row table, increasing in base altitude, from 0 to 80 km.  The model is
    generic in the table; this instance carries the ICAO values for those 8
    layer bases (SI units). *)
Definition icao_table : list layer_row :=
  [ mk_layer_row 0     288.15 (-0.0065) 101325;
    mk_layer_row 11000 216.65 0         22632.06;
    mk_layer_row 20000 216.65 0.001     5474.889;
    mk_layer_row 32000 228.65 0.0028    868.0187;
    mk_layer_row 47000 270.65 0         110.9063;
    mk_layer_row 51000 270.65 (-0.0028) 66.93887;
    mk_layer_row 71000 214.65 (-0.002)  3.956420;
    mk_layer_row 80000 196.65 0         0.886272 ].

Section Atmosphere_model.

Variable std_atmosphere : list layer_row.

(** [Atmo.H_base[0]] and [Atmo.H_base[-1]]. *)
Definition H_min : R := H_base (hd row0 std_atmosphere).
Definition H_max : R := H_base (last std_atmosphere row0).

(** [Layer._layer_idx]: the first [idx] over [H_base[:-1]] with
    [H_base[idx] <= H < H_base[idx+1]]; [None] is the [ValueError]. *)
Fixpoint layer_idx_from (idx : nat) (rows : list layer_row) (H : R) : option nat :=
  match rows with
  | r :: ((r' :: _) as rest) =>
      if Rleb (H_base r) H && Rltb H (H_base r') then Some idx
      else layer_idx_from (S idx) rest H
  | _ => None
  end.

Definition layer_idx (H : R) : option nat := layer_idx_from 0 std_atmosphere H.

(** [Layer.__init__]: the table row of every altitude. *)
Fixpoint Layer (Hs : list R) : exc (list layer_row) :=
  match Hs with
  | [] => Ok []
  | H :: Hs' =>
      match layer_idx H with
      | None => Err ValueError
      | Some j => rows <-? Layer Hs' ;; Ok (nth j std_atmosphere row0 :: rows)
      end
  end.

(** [Atmosphere._h_from_H]. *)
Definition h_from_H (H : R) : R := R_earth * H / (R_earth - H).

(** The attributes of an [Atmosphere] object: [_H] (geopotential altitude),
    [_h] (geometric altitude), [layer] (the table row of each altitude) and the
    caller overrides [_T], [_p], [_wdir], [_wspd] ([None] when not set). *)
Record Atmosphere : Type := mkAtmosphere {
  _H : nd;
  _h : list R;
  layer : list layer_row;
  _T : option nd;
  _p : option nd;
  _wdir : option nd;
  _wspd : option nd
}.

(** A fresh object, before [__init__] assigns its attributes. *)
Definition atm_fresh : Atmosphere :=
  mkAtmosphere (NArr [0%nat] []) [] [] None None None None.

Definition set_H_fields (H : nd) (h : list R) (s : Atmosphere) : Atmosphere :=
  mkAtmosphere H h (layer s) (_T s) (_p s) (_wdir s) (_wspd s).

Definition set_layer_clear (rows : list layer_row) (s : Atmosphere) : Atmosphere :=
  mkAtmosphere (_H s) (_h s) rows None None None None.

Definition set_T_field (T : option nd) (s : Atmosphere) : Atmosphere :=
  mkAtmosphere (_H s) (_h s) (layer s) T (_p s) (_wdir s) (_wspd s).

Definition set_p_field (p : option nd) (s : Atmosphere) : Atmosphere :=
  mkAtmosphere (_H s) (_h s) (layer s) (_T s) p (_wdir s) (_wspd s).

Definition set_wdir_field (w : option nd) (s : Atmosphere) : Atmosphere :=
  mkAtmosphere (_H s) (_h s) (layer s) (_T s) (_p s) w (_wspd s).

Definition set_wspd_field (w : option nd) (s : Atmosphere) : Atmosphere :=
  mkAtmosphere (_H s) (_h s) (layer s) (_T s) (_p s) (_wdir s) w.

(** [Atmosphere.H] setter: [np.atleast_1d], the dimension check, the bounds
    check, then [_H], [_h], [layer] and the cleared overrides in this order. *)
Definition set_H (Hin : nd) : PyM Atmosphere unit :=
  let H := atleast_1d Hin in
  if Nat.ltb 1 (ndim H) then raise TypeError
  else if existsb (fun x => Rltb x H_min || Rltb H_max x) (nd_data H)
  then raise ValueError
  else
    modify (set_H_fields H (map h_from_H (nd_data H))) ;;;
    rows <- lift_exc (Layer (nd_data H)) ;;
    modify (set_layer_clear rows).

(** [Atmosphere.__init__] for a given altitude. *)
Definition Atmosphere_init (Hin : nd) : Atmosphere * exc unit :=
  set_H Hin atm_fresh.

(** [Atmosphere.T] getter: the override, or
    [T_base + T_grad*(self.H - H_base)] over the layer rows. *)
Definition get_T (s : Atmosphere) : exc nd :=
  match _T s with
  | Some T => Ok T
  | None =>
      T <-? bcast2 row0 0 (fun r H => T_base r + T_grad r * (H - H_base r))
                  (layer s) (nd_data (_H s)) ;;
      Ok (NArr [length T] T)
  end.

(** One element of the [Atmosphere.p] getter, by the sign of [T_grad]. *)
Definition p_layer (r : layer_row) (H T : R) : R :=
  if Req_EM_T (T_grad r) 0
  then p_base r * exp ((- g / (R_star * T)) * (H - H_base r))
  else p_base r * Rpower (1 + (T_grad r / T_base r) * (H - H_base r))
                         ((1 / T_grad r) * (- g / R_star)).

Fixpoint zip_with3 {A B C D} (f : A -> B -> C -> D)
    (xs : list A) (ys : list B) (zs : list C) : list D :=
  match xs, ys, zs with
  | x :: xs', y :: ys', z :: zs' => f x y z :: zip_with3 f xs' ys' zs'
  | _, _, _ => []
  end.

(** [Atmosphere.p] getter: the override, or the layer equations evaluated
    through the boolean masks [T_grad == 0] and [T_grad != 0]; a mask whose
    size differs from the altitude or temperature array raises [IndexError]. *)
Definition get_p (s : Atmosphere) : exc nd :=
  match _p s with
  | Some p => Ok p
  | None =>
      T <-? get_T s ;;
      let L := layer s in
      let H := nd_data (_H s) in
      let Td := nd_data T in
      if Nat.eqb (length L) (length H) && Nat.eqb (length L) (length Td)
      then Ok (NArr [length H] (zip_with3 p_layer L H Td))
      else Err IndexError
  end.

(** [Atmosphere.a] getter. *)
Definition get_a (s : Atmosphere) : exc (list R) :=
  T <-? get_T s ;; Ok (map (fun t => sqrt (gamma * R_star * t)) (nd_data T)).

(** [Atmosphere.T] setter. *)
Definition set_T (T : nd) : PyM Atmosphere unit :=
  fun s => if negb (Nat.eqb (np_size T) (np_size (_H s)))
           then (s, Err AttributeError)
           else (set_T_field (Some T) s, Ok tt).

(** [Atmosphere.p] setter. *)
Definition set_p (p : nd) : PyM Atmosphere unit :=
  fun s => if negb (Nat.eqb (np_size p) (np_size (_H s)))
           then (s, Err AttributeError)
           else (set_p_field (Some p) s, Ok tt).

(** [Atmosphere.wdir] setter. *)
Definition set_wdir (w : nd) : PyM Atmosphere unit :=
  fun s => if negb (Nat.eqb (np_size w) (np_size (_H s)))
           then (s, Err AttributeError)
           else (set_wdir_field (Some w) s, Ok tt).

(** [Atmosphere.wspd] setter. *)
Definition set_wspd (w : nd) : PyM Atmosphere unit :=
  fun s => if negb (Nat.eqb (np_size w) (np_size (_H s)))
           then (s, Err AttributeError)
           else (set_wspd_field (Some w) s, Ok tt).

(** An assignment to an attribute of an [Atmosphere] object. *)
Inductive atm_op : Type :=
| OpH (H : nd)
| OpT (T : nd)
| OpP (p : nd)
| OpWdir (w : nd)
| OpWspd (w : nd).

(** The setter that an assignment runs. *)
Definition run_atm_op (o : atm_op) : PyM Atmosphere unit :=
  match o with
  | OpH H => set_H H
  | OpT T => set_T T
  | OpP p => set_p p
  | OpWdir w => set_wdir w
  | OpWspd w => set_wspd w
  end.

(** A caller's assignments in order, each one run on the object the previous
    one left, whether or not it raised (the caller catches the exception). *)
Fixpoint run_atm_ops (os : list atm_op) (s : Atmosphere) : Atmosphere :=
  match os with
  | [] => s
  | o :: os' => run_atm_ops os' (fst (run_atm_op o s))
  end.

(** Whether an assignment reassigns the altitude or the temperature. *)
Definition assigns_H_or_T (o : atm_op) : bool :=
  match o with OpH _ | OpT _ => true | _ => false end.

End Atmosphere_model.

(** ** Isentropic-flow and non-dimensional relations *)

(** Modelled from the spec: [concopt/nondimensional.py] is not part of the
    sources.  [NonDimensional.mach_velocity]: "TAS = M * a(H)". *)
Definition mach_velocity (M a : R) : R := M * a.

(** Modelled from the spec: [NonDimensional.mach_number], true airspeed
    divided by the local speed of sound. *)
Definition mach_number (U a : R) : R := U / a.

(** Modelled from the spec: [concopt/isentropicflow.py] is not part of the
    sources.  [IsentropicFlow.p0_by_p]: "p0/p = (1+ (γ-1)/2 M²)^(γ/(γ-1))". *)
Definition p0_by_p (M y : R) : R := Rpower (1 + (y - 1) / 2 * M ^ 2) (y / (y - 1)).

(** Modelled from the spec: [IsentropicFlow.M_from_p0_by_p], the inverse of
    [p0_by_p] at the ratio of specific heats of air. *)
Definition M_from_p0_by_p (r : R) : R :=
  sqrt (2 / (gamma - 1) * (Rpower r ((gamma - 1) / gamma) - 1)).

(** ** FlightCondition ([concopt/condition.py]) *)

(** The value of [_holdconst_vel_var]. *)
Inductive held : Type := HoldM | HoldTAS | HoldCAS.

(** The attributes of a [FlightCondition] object: its [Atmosphere] part, the
    sea-level atmosphere [_atm0], the velocity quantities ([None] while the
    attribute does not exist) and the held velocity.  The source also assigns
    [_EAS], but the call that computes it raises first ([_EAS_from_TAS]), so
    that attribute never exists. *)
Record FlightCondition : Type := mkFC {
  atm : Atmosphere;
  _atm0 : Atmosphere;
  _M : option (list R);
  _TAS : option (list R);
  _q_c : option (list R);
  _CAS : option (list R);
  _holdconst_vel_var : held
}.

Definition fc_fresh : FlightCondition :=
  mkFC atm_fresh atm_fresh None None None None HoldCAS.

Definition with_atm (a : Atmosphere) (s : FlightCondition) : FlightCondition :=
  mkFC a (_atm0 s) (_M s) (_TAS s) (_q_c s) (_CAS s) (_holdconst_vel_var s).
Definition with_atm0 (a : Atmosphere) (s : FlightCondition) : FlightCondition :=
  mkFC (atm s) a (_M s) (_TAS s) (_q_c s) (_CAS s) (_holdconst_vel_var s).
Definition with_M (v : list R) (s : FlightCondition) : FlightCondition :=
  mkFC (atm s) (_atm0 s) (Some v) (_TAS s) (_q_c s) (_CAS s) (_holdconst_vel_var s).
Definition with_TAS (v : list R) (s : FlightCondition) : FlightCondition :=
  mkFC (atm s) (_atm0 s) (_M s) (Some v) (_q_c s) (_CAS s) (_holdconst_vel_var s).
Definition with_q_c (v : list R) (s : FlightCondition) : FlightCondition :=
  mkFC (atm s) (_atm0 s) (_M s) (_TAS s) (Some v) (_CAS s) (_holdconst_vel_var s).
Definition with_CAS (v : list R) (s : FlightCondition) : FlightCondition :=
  mkFC (atm s) (_atm0 s) (_M s) (_TAS s) (_q_c s) (Some v) (_holdconst_vel_var s).
Definition with_hold (h : held) (s : FlightCondition) : FlightCondition :=
  mkFC (atm s) (_atm0 s) (_M s) (_TAS s) (_q_c s) (_CAS s) h.

(** A method of the [Atmosphere] superclass run on a [FlightCondition]. *)
Definition on_atm {A} (m : PyM Atmosphere A) : PyM FlightCondition A :=
  fun s => let (a', r) := m (atm s) in (with_atm a' s, r).

Definition with_H_only (H : nd) (a : Atmosphere) : Atmosphere :=
  mkAtmosphere H (_h a) (layer a) (_T a) (_p a) (_wdir a) (_wspd a).

(** [FlightCondition._check_compatible_array_size] on the two sizes. *)
Definition check_compatible_array_size (size1 size2 : nat) : bool :=
  negb (Nat.ltb 1 size1 && Nat.ltb 1 size2 && negb (Nat.eqb size1 size2)).

(** [FlightCondition._reshape_arr1_like_arr2], given the size of [arr2]. *)
Definition reshape_arr1_like_arr2 (arr1 : list R) (size2 : nat) : list R :=
  if Nat.ltb 1 size2 && Nat.eqb (length arr1) 1
  then repeat (hd 0 arr1) size2 else arr1.

(** The same on the altitude array ([np.ones_like(arr2)*arr1]). *)
Definition reshape_H_like (H : nd) (size2 : nat) : nd :=
  if Nat.ltb 1 size2 && Nat.eqb (np_size H) 1
  then NArr [size2] (repeat (hd 0 (nd_data H)) size2) else H.

(** [FlightCondition._preprocess_arr] with [input_alt] and no [input_vel]. *)
Definition _preprocess_arr (input_arr : list R) (input_alt : nd) : list R :=
  reshape_arr1_like_arr2 input_arr (np_size input_alt).

(** [FlightCondition._process_input_velocity]. *)
Definition _process_input_velocity (vel_arr : list R) : PyM FlightCondition unit :=
  s <- get ;;
  if check_compatible_array_size (length vel_arr) (np_size (_H (atm s)))
  then modify (fun s => with_atm
                 (with_H_only (reshape_H_like (_H (atm s)) (length vel_arr)) (atm s)) s)
  else raise AttributeError.

Definition _TAS_from_M (s : FlightCondition) (M : list R) : exc (list R) :=
  a_inf <-? get_a (atm s) ;; bc mach_velocity M a_inf.

Definition _M_from_TAS (s : FlightCondition) (TAS : list R) : exc (list R) :=
  a_inf <-? get_a (atm s) ;; bc mach_number TAS a_inf.

(** [Phys.gamma_air]: the class [PhysicalConstants] of [concopt/constants.py]
    defines [gamma] and no [gamma_air], so reading it raises
    [AttributeError]. *)
Definition Phys_gamma_air : exc R := Err AttributeError.

(** [self._EAS_from_TAS]: no class or module of the sources defines this
    method, so looking it up raises [AttributeError] before its arguments are
    evaluated. *)
Definition _EAS_from_TAS : exc unit := Err AttributeError.

(** [FlightCondition._impact_pressure]: [y = Phys.gamma_air], then
    [p0 = p0_by_p(M, y)*p] and [q_c = p0 - p]. *)
Definition _impact_pressure (M p : list R) : exc (list R) :=
  y <-? Phys_gamma_air ;;
  p0 <-? bc (fun m pp => p0_by_p m y * pp) M p ;; bc Rminus p0 p.

Definition _q_c_from_CAS (s : FlightCondition) (CAS : list R) : exc (list R) :=
  a_h0 <-? get_a (_atm0 s) ;;
  p_h0 <-? get_p (_atm0 s) ;;
  M_ <-? bc mach_number CAS a_h0 ;;
  _impact_pressure M_ (nd_data p_h0).

Definition _CAS_from_q_c (s : FlightCondition) (q_c : list R) : exc (list R) :=
  a_h0 <-? get_a (_atm0 s) ;;
  p_h0 <-? get_p (_atm0 s) ;;
  r1 <-? bc Rplus q_c (nd_data p_h0) ;;
  r <-? bc Rdiv r1 (nd_data p_h0) ;;
  bc mach_velocity (map M_from_p0_by_p r) a_h0.

Definition _M_from_q_c (s : FlightCondition) (q_c : list R) : exc (list R) :=
  p_inf <-? get_p (atm s) ;;
  r1 <-? bc Rplus q_c (nd_data p_inf) ;;
  r <-? bc Rdiv r1 (nd_data p_inf) ;;
  Ok (map M_from_p0_by_p r).

Definition _q_c_from_M (s : FlightCondition) (M : list R) : exc (list R) :=
  p_inf <-? get_p (atm s) ;; _impact_pressure M (nd_data p_inf).

(** [FlightCondition.M] setter. *)
Definition set_M (M : list R) : PyM FlightCondition unit :=
  s <- get ;;
  let M' := _preprocess_arr M (_H (atm s)) in
  modify (with_M M') ;;;
  _process_input_velocity M' ;;;
  s <- get ;; TAS <- lift_exc (_TAS_from_M s M') ;; modify (with_TAS TAS) ;;;
  s <- get ;; q_c <- lift_exc (_q_c_from_M s M') ;; modify (with_q_c q_c) ;;;
  s <- get ;; CAS <- lift_exc (_CAS_from_q_c s q_c) ;; modify (with_CAS CAS) ;;;
  modify (with_hold HoldM).

(** [FlightCondition.TAS] setter. *)
Definition set_TAS (TAS : list R) : PyM FlightCondition unit :=
  s <- get ;;
  let TAS' := _preprocess_arr TAS (_H (atm s)) in
  modify (with_TAS TAS') ;;;
  _process_input_velocity TAS' ;;;
  s <- get ;; M <- lift_exc (_M_from_TAS s TAS) ;; modify (with_M M) ;;;
  lift_exc _EAS_from_TAS ;;;
  s <- get ;; q_c <- lift_exc (_q_c_from_M s M) ;; modify (with_q_c q_c) ;;;
  s <- get ;; CAS <- lift_exc (_CAS_from_q_c s q_c) ;; modify (with_CAS CAS) ;;;
  modify (with_hold HoldTAS).

(** [FlightCondition.CAS] setter. *)
Definition set_CAS (CAS : list R) : PyM FlightCondition unit :=
  s <- get ;;
  let CAS' := _preprocess_arr CAS (_H (atm s)) in
  modify (with_CAS CAS') ;;;
  _process_input_velocity CAS' ;;;
  s <- get ;; q_c <- lift_exc (_q_c_from_CAS s CAS') ;; modify (with_q_c q_c) ;;;
  s <- get ;; M <- lift_exc (_M_from_q_c s q_c) ;; modify (with_M M) ;;;
  s <- get ;; TAS <- lift_exc (_TAS_from_M s M) ;; modify (with_TAS TAS) ;;;
  lift_exc _EAS_from_TAS ;;;
  modify (with_hold HoldCAS).

(** An attribute read that raises [AttributeError] when it does not exist. *)
Definition attr {A} (o : option A) : PyM FlightCondition A :=
  match o with Some a => ret a | None => raise AttributeError end.

Section Flight_condition_model.

Variable std_atmosphere : list layer_row.

(** [FlightCondition.H] setter: the [Atmosphere] setter, then, when a velocity
    exists and the sizes are compatible (otherwise only a warning), the held
    velocity quantity is set again, reshaped to the new altitude size. *)
Definition fc_set_H (Hin : nd) : PyM FlightCondition unit :=
  on_atm (set_H std_atmosphere Hin) ;;;
  s <- get ;;
  match _M s with
  | None => ret tt
  | Some M =>
      if check_compatible_array_size (np_size Hin) (length M) then
        match _holdconst_vel_var s with
        | HoldM => set_M (reshape_arr1_like_arr2 M (np_size Hin))
        | HoldTAS => TAS <- attr (_TAS s) ;;
                     set_TAS (reshape_arr1_like_arr2 TAS (np_size Hin))
        | HoldCAS => CAS <- attr (_CAS s) ;;
                     set_CAS (reshape_arr1_like_arr2 CAS (np_size Hin))
        end
      else ret tt
  end.

(** [FlightCondition.T] setter: the size check, [self._T = T + 200*unit('delta_degC')],
    then [self.M = self.M]. *)
Definition fc_set_T (T : nd) : PyM FlightCondition unit :=
  s <- get ;;
  if negb (Nat.eqb (np_size T) (np_size (_H (atm s)))) then raise AttributeError
  else
    on_atm (modify (set_T_field (Some (nd_map (fun t => t + 200) T)))) ;;;
    s <- get ;; M <- attr (_M s) ;; set_M M.

(** The velocity argument of [FlightCondition.__init__]. *)
Inductive vel_input : Type :=
| VelM (M : list R)
| VelTAS (TAS : list R)
| VelCAS (CAS : list R)
| VelNone.

Definition _mach_min : R := 0.
Definition _mach_max : R := 3.

(** [FlightCondition.__init__] up to the Mach-bounds check: the [Atmosphere]
    initialisation (through the overriding altitude setter), the sea-level
    atmosphere, the default held quantity and the velocity assignment. *)
Definition FlightCondition_init_core (Hin : nd) (v : vel_input) : PyM FlightCondition unit :=
  fc_set_H Hin ;;;
  (let (a0, r0) := Atmosphere_init std_atmosphere (NScalar 0) in
   lift_exc r0 ;;; modify (with_atm0 a0)) ;;;
  modify (with_hold HoldCAS) ;;;
  match v with
  | VelM M => set_M M
  | VelTAS TAS => set_TAS TAS
  | VelCAS CAS => set_CAS CAS
  | VelNone => set_M [0]
  end.

(** [M_ < self._mach_min] or [self._mach_max < M_] for some element. *)
Definition mach_out_of_bounds (M : list R) : bool :=
  existsb (fun m => Rltb m _mach_min || Rltb _mach_max m) M.

(** [FlightCondition.__init__]: the object it builds, and whether it raised. *)
Definition FlightCondition_init (Hin : nd) (v : vel_input) : FlightCondition * exc unit :=
  (FlightCondition_init_core Hin v ;;;
   s <- get ;; M <- attr (_M s) ;;
   if mach_out_of_bounds M then raise ValueError else ret tt) fc_fresh.

End Flight_condition_model.

(** ** Airspeed conversions ([concopt/conditions.py]) *)








(** The fields of scipy's [OptimizeResult] that the code can read. *)
Record OptimizeResult : Type := mkOptimizeResult {
  res_x : R;
  res_success : bool;
  res_nit : nat
}.

Section Cas_to_mach.

(** [scipy.optimize.minimize_scalar] (bounded method), a library routine:
    an objective, the bounds and [maxiter] give its result, or the exception
    the objective raised. *)
Variable minimize_scalar : (R -> exc R) -> R * R -> nat -> exc OptimizeResult.




End Cas_to_mach.



(** ** Sea-level flight conditions *)

(** An atmosphere of one altitude, one layer row and no override. *)
Definition unit_atm (a : Atmosphere) : Prop :=
  exists sh x r, _H a = NArr sh [x] /\ layer a = [r] /\ _T a = None /\ _p a = None.

(** [Atmosphere(H=0)] on the standard table, and the object
    [FlightCondition.__init__] has built from it when it reaches the velocity
    assignment. *)
Definition sea_level_atm : Atmosphere := fst (set_H icao_table (NScalar 0) atm_fresh).
Definition sea_level_fc : FlightCondition :=
  mkFC sea_level_atm sea_level_atm None None None None HoldCAS.

(** ** Further getters of [Atmosphere] and [FlightCondition] *)

(** [Atmosphere._H_from_h]: geopotential from geometric altitude. *)
Definition H_from_h (h : R) : R := R_earth * h / (R_earth + h).

(** [Atmosphere.g] getter: [g_0*(R_earth/(R_earth + h))**2] over the stored
    geometric altitude [self.h], that is [_h]. *)
Definition get_g (s : Atmosphere) : list R :=
  map (fun h => g * (R_earth / (R_earth + h)) ^ 2) (_h s).


(** [Atmosphere.wdir] getter: the override, or [Atmo.wdir_0], an attribute
    that [AtmosphereConstants] does not define ([AttributeError]). *)
Definition get_wdir (s : Atmosphere) : exc nd :=
  match _wdir s with
  | Some w => Ok w
  | None => Err AttributeError
  end.

(** [Atmosphere.wspd] getter: the override, or [Atmo.wpsd_0], an attribute
    that [AtmosphereConstants] does not define either ([AttributeError]). *)
Definition get_wspd (s : Atmosphere) : exc nd :=
  match _wspd s with
  | Some w => Ok w
  | None => Err AttributeError
  end.

(** ** Stagnation temperature ([concopt/conditions.py]) *)




(** * Proofs *)

(** ** Running methods *)

Ltac run_py :=
  repeat (unfold bind, get, modify, ret, raise, lift_exc, attr, on_atm in *; cbn beta iota zeta in *).


(** Evaluates a method on concrete numbers: every comparison of reals is
    decided by [lra] and the program is reduced around it. *)
Ltac decide_R :=
  repeat first
    [ match goal with
      | |- context [Rlt_dec ?a ?b] => destruct (Rlt_dec a b); try (exfalso; lra)
      | |- context [Rle_dec ?a ?b] => destruct (Rle_dec a b); try (exfalso; lra)
      | |- context [Req_EM_T ?a ?b] => destruct (Req_EM_T a b); try (exfalso; lra)
      end
    | progress unfold Rltb, Rleb
    | progress cbn -[Rplus Rmult Rminus Rdiv Ropp Rinv IZR Rpower exp sqrt ln] ].

Lemma bcast2_length_eq {A B C} (dA : A) (dB : B) (f : A -> B -> C) xs ys :
  length xs = length ys -> bcast2 dA dB f xs ys = Ok (zip_with f xs ys).
Proof.
  intros E. unfold bcast2. rewrite E, Nat.eqb_refl. reflexivity.
Qed.

Lemma zip_with_length {A B C} (f : A -> B -> C) xs ys :
  length xs = length ys -> length (zip_with f xs ys) = length xs.
Proof.
  revert ys; induction xs as [|x xs IH]; intros [|y ys] E; simpl in *; try lia.
  rewrite IH; lia.
Qed.

Lemma nth_error_zip_with {A B C} (f : A -> B -> C) xs ys k x y :
  nth_error xs k = Some x -> nth_error ys k = Some y ->
  nth_error (zip_with f xs ys) k = Some (f x y).
Proof.
  revert ys k; induction xs as [|x0 xs IH]; intros [|y0 ys] [|k] Hx Hy;
    simpl in *; try discriminate.
  - congruence.
  - auto.
Qed.

Lemma nth_error_zip_with3 {A B C D} (f : A -> B -> C -> D) xs ys zs k x y z :
  nth_error xs k = Some x -> nth_error ys k = Some y -> nth_error zs k = Some z ->
  nth_error (zip_with3 f xs ys zs) k = Some (f x y z).
Proof.
  revert ys zs k; induction xs as [|x0 xs IH]; intros [|y0 ys] [|z0 zs] [|k] Hx Hy Hz;
    simpl in *; try discriminate.
  - congruence.
  - auto.
Qed.

(** ** The setters of the Atmosphere overrides *)

Definition fc_sample : FlightCondition :=
  mkFC (mkAtmosphere (NArr [1%nat] [0]) [0] [] None None None None)
       atm_fresh None None None None HoldM.

(** C9: a temperature or pressure override whose size differs from the
    altitude size raises [AttributeError] at once and leaves the object as it
    was, for the [Atmosphere] setters and the [FlightCondition] setter. *)
Theorem override_size_mismatch_rejected :
  (forall (s : Atmosphere) (v : nd), np_size v <> np_size (_H s) ->
     set_T v s = (s, Err AttributeError) /\ set_p v s = (s, Err AttributeError)) /\
  (forall (s : FlightCondition) (v : nd), np_size v <> np_size (_H (atm s)) ->
     fc_set_T v s = (s, Err AttributeError)).
Proof.
  split.
  - intros s v E. apply Nat.eqb_neq in E.
    unfold set_T, set_p. rewrite E. split; reflexivity.
  - intros s v E. apply Nat.eqb_neq in E.
    unfold fc_set_T. run_py. rewrite E. reflexivity.
Qed.

Lemma override_size_mismatch_rejected_witness :
  set_p (NArr [2%nat] [1; 2]) (atm fc_sample)
    = (atm fc_sample, Err AttributeError) /\
  fc_set_T (NArr [2%nat] [250; 260]) fc_sample = (fc_sample, Err AttributeError).
Proof.
  split.
  - apply (proj1 override_size_mismatch_rejected (atm fc_sample) (NArr [2%nat] [1; 2])).
    cbn. lia.
  - apply (proj2 override_size_mismatch_rejected fc_sample (NArr [2%nat] [250; 260])).
    cbn. lia.
Defined.

(** ** The altitude setter *)

Lemma ndim_atleast_1d (a : nd) : (1 <= ndim (atleast_1d a))%nat.
Proof. destruct a as [x|[|n sh] d]; cbn; lia. Qed.

(** C10: an input of more than one dimension raises [TypeError] before any
    attribute is written; whatever the outcome, an altitude the setter stores
    is the one-dimensional [np.atleast_1d] of its input, so a scalar is stored
    as a one-element array. *)
Theorem set_H_one_dimensional :
  (forall tbl (s : Atmosphere) (Hin : nd), (1 < ndim (atleast_1d Hin))%nat ->
     set_H tbl Hin s = (s, Err TypeError)) /\
  (forall tbl (s s' : Atmosphere) (Hin : nd) r, set_H tbl Hin s = (s', r) ->
     _H s' = _H s \/ (_H s' = atleast_1d Hin /\ ndim (_H s') = 1%nat)) /\
  (forall tbl (s s' : Atmosphere) (x : R) r, set_H tbl (NScalar x) s = (s', r) ->
     _H s' = _H s \/ _H s' = NArr [1%nat] [x]).
Proof.
  assert (Hgen : forall tbl (s s' : Atmosphere) (Hin : nd) r,
            set_H tbl Hin s = (s', r) ->
            _H s' = _H s \/ (_H s' = atleast_1d Hin /\ ndim (_H s') = 1%nat)).
  { intros tbl s s' Hin r Hs. unfold set_H in Hs.
    destruct (Nat.ltb 1 (ndim (atleast_1d Hin))) eqn:Hd.
    - inversion Hs; subst. left; reflexivity.
    - apply Nat.ltb_ge in Hd. pose proof (ndim_atleast_1d Hin).
      destruct (existsb _ _).
      + inversion Hs; subst. left; reflexivity.
      + run_py. destruct (Layer tbl _); cbn in Hs; inversion Hs; subst; cbn;
          right; split; auto; lia. }
  split; [|split].
  - intros tbl s Hin Hd. unfold set_H. apply Nat.ltb_lt in Hd. rewrite Hd. reflexivity.
  - exact Hgen.
  - intros tbl s s' x r Hs. destruct (Hgen _ _ _ _ _ Hs) as [E|[E _]]; auto.
Qed.

Lemma set_H_one_dimensional_witness :
  set_H icao_table (NArr [2%nat; 2%nat] [0; 1; 2; 3]) atm_fresh
    = (atm_fresh, Err TypeError).
Proof.
  apply (proj1 set_H_one_dimensional icao_table atm_fresh (NArr [2%nat; 2%nat] [0; 1; 2; 3])).
  cbn. lia.
Defined.

(** ** Wind triangle *)



(** ** Layer lookup *)

(** The layer bases of a table are non-decreasing. *)
Fixpoint bases_sorted (rows : list layer_row) : Prop :=
  match rows with
  | r :: ((r' :: _) as rest) => H_base r <= H_base r' /\ bases_sorted rest
  | _ => True
  end.

Lemma Rltb_false x y : y <= x -> Rltb x y = false.
Proof. intros. unfold Rltb. destruct (Rlt_dec x y); [lra|reflexivity]. Qed.

Lemma Rltb_true x y : x < y -> Rltb x y = true.
Proof. intros. unfold Rltb. destruct (Rlt_dec x y); [reflexivity|lra]. Qed.

Lemma Rleb_true x y : x <= y -> Rleb x y = true.
Proof. intros. unfold Rleb. destruct (Rle_dec x y); [reflexivity|lra]. Qed.

Lemma Rleb_false x y : y < x -> Rleb x y = false.
Proof. intros. unfold Rleb. destruct (Rle_dec x y); [lra|reflexivity]. Qed.

Lemma bases_sorted_le_last (rows : list layer_row) :
  bases_sorted rows -> forall r, In r rows -> H_base r <= H_base (last rows row0).
Proof.
  induction rows as [|r0 rows IH]; intros Hs r Hin; [destruct Hin|].
  destruct rows as [|r1 rows].
  - destruct Hin as [<-|[]]. cbn. lra.
  - destruct Hs as [H01 Hs]. change (last (r0 :: r1 :: rows) row0) with (last (r1 :: rows) row0).
    destruct Hin as [<-|Hin].
    + specialize (IH Hs r1 (or_introl eq_refl)). lra.
    + apply IH; assumption.
Qed.

Lemma layer_idx_from_last_None (rows : list layer_row) (i : nat) :
  bases_sorted rows -> layer_idx_from i rows (H_base (last rows row0)) = None.
Proof.
  revert i; induction rows as [|r0 rows IH]; intros i Hs; [reflexivity|].
  destruct rows as [|r1 rows]; [reflexivity|].
  pose proof (bases_sorted_le_last (r1 :: rows) (proj2 Hs) r1 (or_introl eq_refl)) as Hle.
  change (last (r0 :: r1 :: rows) row0) with (last (r1 :: rows) row0) in *.
  cbn [layer_idx_from]. rewrite (Rltb_false _ _ Hle), andb_false_r.
  apply IH, Hs.
Qed.

Lemma H_min_le_H_max (tbl : list layer_row) : bases_sorted tbl -> H_min tbl <= H_max tbl.
Proof.
  intros Hs. unfold H_min, H_max. destruct tbl as [|r rows]; [cbn; lra|].
  apply (bases_sorted_le_last _ Hs), in_eq.
Qed.

(** What [Layer._layer_idx] returns: an index [j] whose row and the next one
    bracket the altitude, [H_base[j] <= H < H_base[j+1]]. *)
Lemma layer_idx_from_spec (rows : list layer_row) (i j : nat) (H : R) :
  layer_idx_from i rows H = Some j ->
  (i <= j)%nat /\ exists r r', nth_error rows (j - i) = Some r /\
    nth_error rows (S (j - i)) = Some r' /\ H_base r <= H < H_base r'.
Proof.
  revert i; induction rows as [|r0 rows IH]; intros i Hl; [discriminate|].
  destruct rows as [|r1 rows]; [discriminate|].
  cbn [layer_idx_from] in Hl.
  destruct (Rleb (H_base r0) H) eqn:Hle; destruct (Rltb H (H_base r1)) eqn:Hlt; cbn in Hl.
  - inversion Hl; subst. rewrite Nat.sub_diag. split; [lia|].
    exists r0, r1. unfold Rleb, Rltb in *.
    destruct (Rle_dec _ _); destruct (Rlt_dec _ _); try discriminate. auto.
  - destruct (IH _ Hl) as [Hij [r [r' [E1 [E2 E3]]]]].
    split; [lia|]. exists r, r'.
    replace (j - i)%nat with (S (j - S i)) by lia. auto.
  - destruct (IH _ Hl) as [Hij [r [r' [E1 [E2 E3]]]]].
    split; [lia|]. exists r, r'.
    replace (j - i)%nat with (S (j - S i)) by lia. auto.
  - destruct (IH _ Hl) as [Hij [r [r' [E1 [E2 E3]]]]].
    split; [lia|]. exists r, r'.
    replace (j - i)%nat with (S (j - S i)) by lia. auto.
Qed.

(** C3 (code_bug): for every table with non-decreasing layer bases, setting
    the altitude to [H_max] passes the setter's bounds check, stores the
    altitude, and then raises [ValueError] from [Layer._layer_idx], which
    finds no layer [H_base[i] <= H_max < H_base[i+1]]. *)
Theorem set_H_at_H_max_raises (tbl : list layer_row) (s : Atmosphere) :
  bases_sorted tbl ->
  set_H tbl (NScalar (H_max tbl)) s =
  (set_H_fields (NArr [1%nat] [H_max tbl]) [h_from_H (H_max tbl)] s, Err ValueError).
Proof.
  intros Hs. pose proof (H_min_le_H_max tbl Hs) as Hmm.
  unfold set_H. cbn [atleast_1d ndim nd_shape length Nat.ltb Nat.leb nd_data existsb].
  rewrite (Rltb_false _ _ Hmm), (Rltb_false _ _ (Rle_refl _)). cbn.
  unfold layer_idx, H_max. rewrite layer_idx_from_last_None by exact Hs.
  reflexivity.
Qed.

Lemma set_H_at_H_max_raises_witness :
  bases_sorted icao_table /\
  snd (set_H icao_table (NScalar 80000) atm_fresh) = Err ValueError.
Proof.
  assert (Hs : bases_sorted icao_table) by (cbn; repeat split; lra).
  split; [exact Hs|].
  change 80000 with (H_max icao_table).
  rewrite (set_H_at_H_max_raises icao_table atm_fresh Hs). reflexivity.
Defined.

(** ** Standard-day temperature and pressure *)

(** The closed-form layer equations of the spec (§4.1), written from its
    words, to be compared with the getters. *)
Definition layer_T_spec (r : layer_row) (H : R) : R :=
  T_base r + T_grad r * (H - H_base r).

Definition layer_p_spec (r : layer_row) (H : R) : R :=
  if Req_EM_T (T_grad r) 0
  then p_base r * exp (- g / (R_star * layer_T_spec r H) * (H - H_base r))
  else p_base r * Rpower (1 + T_grad r / T_base r * (H - H_base r))
                         (- g / (R_star * T_grad r)).

Lemma Layer_spec (tbl : list layer_row) (Hs : list R) (rows : list layer_row) :
  Layer tbl Hs = Ok rows ->
  length rows = length Hs /\
  forall k Hk, nth_error Hs k = Some Hk ->
    exists j, layer_idx tbl Hk = Some j /\ nth_error rows k = Some (nth j tbl row0).
Proof.
  revert rows; induction Hs as [|H Hs IH]; intros rows HL; cbn in HL.
  - inversion HL; subst. split; [reflexivity|]. intros [|k] Hk E; discriminate.
  - destruct (layer_idx tbl H) as [j|] eqn:Hj; [|discriminate].
    destruct (Layer tbl Hs) as [rows'|e] eqn:HL'; cbn in HL; [|discriminate].
    inversion HL; subst. destruct (IH _ eq_refl) as [Hlen Hnth].
    split; [cbn; lia|].
    intros [|k] Hk E; cbn in E.
    + inversion E; subst. exists j. auto.
    + apply Hnth, E.
Qed.

Lemma nth_error_nth_layer (tbl : list layer_row) (j : nat) (Hk : R) :
  layer_idx tbl Hk = Some j -> nth_error tbl j = Some (nth j tbl row0).
Proof.
  intros Hj. destruct (layer_idx_from_spec _ 0 j Hk Hj) as [_ [r [r' [E _]]]].
  rewrite Nat.sub_0_r in E. rewrite E. f_equal. symmetry. apply nth_error_nth, E.
Qed.

Lemma p_layer_spec (r : layer_row) (H : R) :
  p_layer r H (layer_T_spec r H) = layer_p_spec r H.
Proof.
  unfold p_layer, layer_p_spec.
  destruct (Req_EM_T (T_grad r) 0) as [E|E]; [reflexivity|].
  f_equal. f_equal. unfold R_star. field. split; [exact E|lra].
Qed.

(** C5: after the altitude has been set (so no override is left), the
    temperature and the pressure at every altitude of the array are the
    spec's closed forms for the layer [Layer._layer_idx] selects. *)
Theorem standard_day_T_p (tbl : list layer_row) (s s' : Atmosphere) (Hin : nd) :
  set_H tbl Hin s = (s', Ok tt) ->
  forall k Hk, nth_error (nd_data Hin) k = Some Hk ->
  exists i r Ts ps,
    layer_idx tbl Hk = Some i /\ nth_error tbl i = Some r /\
    get_T s' = Ok (NArr [length (nd_data Hin)] Ts) /\
    nth_error Ts k = Some (layer_T_spec r Hk) /\
    get_p s' = Ok (NArr [length (nd_data Hin)] ps) /\
    nth_error ps k = Some (layer_p_spec r Hk).
Proof.
  intros Hset k Hk Hnth.
  assert (Hdata : nd_data (atleast_1d Hin) = nd_data Hin)
    by (destruct Hin as [x|[|n sh] d]; reflexivity).
  unfold set_H in Hset.
  destruct (Nat.ltb 1 (ndim (atleast_1d Hin))); [discriminate|].
  destruct (existsb _ _); [discriminate|].
  run_py. rewrite Hdata in Hset.
  destruct (Layer tbl (nd_data Hin)) as [rows|e] eqn:HL; cbn in Hset; [|discriminate].
  inversion Hset; subst s'; clear Hset.
  destruct (Layer_spec _ _ _ HL) as [Hlen Hrows].
  destruct (Hrows k Hk Hnth) as [j [Hj Hrj]].
  set (r := nth j tbl row0) in *.
  set (Ts := zip_with (fun r0 H => T_base r0 + T_grad r0 * (H - H_base r0)) rows (nd_data Hin)).
  assert (HT : get_T (set_layer_clear rows (set_H_fields (atleast_1d Hin)
                        (map h_from_H (nd_data Hin)) s)) = Ok (NArr [length (nd_data Hin)] Ts)).
  { unfold get_T. cbn [_T set_layer_clear layer _H set_H_fields].
    rewrite Hdata, bcast2_length_eq by exact Hlen. cbn.
    unfold Ts. rewrite zip_with_length, Hlen by exact Hlen. reflexivity. }
  assert (HTk : nth_error Ts k = Some (layer_T_spec r Hk))
    by (unfold Ts; apply (nth_error_zip_with _ _ _ _ _ _ Hrj Hnth)).
  assert (HlenT : length Ts = length rows)
    by (unfold Ts; apply zip_with_length, Hlen).
  exists j, r, Ts, (zip_with3 p_layer rows (nd_data Hin) Ts).
  split; [exact Hj|]. split; [apply (nth_error_nth_layer tbl j Hk Hj)|].
  split; [exact HT|]. split; [exact HTk|]. split.
  - unfold get_p. cbn [_p set_layer_clear layer _H set_H_fields].
    rewrite HT, Hdata. cbn [ebind nd_data].
    rewrite HlenT, Hlen, Nat.eqb_refl. reflexivity.
  - rewrite (nth_error_zip_with3 _ _ _ _ _ _ _ _ Hrj Hnth HTk).
    f_equal. apply p_layer_spec.
Qed.

Lemma set_H_5000_ok :
  snd (set_H icao_table (NScalar 5000) atm_fresh) = Ok tt.
Proof. unfold set_H, H_min, H_max. decide_R; reflexivity. Qed.

Lemma standard_day_T_p_witness :
  let s' := fst (set_H icao_table (NScalar 5000) atm_fresh) in
  snd (set_H icao_table (NScalar 5000) atm_fresh) = Ok tt /\
  exists i r Ts ps,
    layer_idx icao_table 5000 = Some i /\ nth_error icao_table i = Some r /\
    get_T s' = Ok (NArr [1%nat] Ts) /\
    nth_error Ts 0 = Some (layer_T_spec r 5000) /\
    get_p s' = Ok (NArr [1%nat] ps) /\
    nth_error ps 0 = Some (layer_p_spec r 5000).
Proof.
  cbv zeta. split; [exact set_H_5000_ok|].
  assert (E : set_H icao_table (NScalar 5000) atm_fresh
              = (fst (set_H icao_table (NScalar 5000) atm_fresh), Ok tt)).
  { rewrite <- set_H_5000_ok. apply surjective_pairing. }
  exact (standard_day_T_p icao_table atm_fresh _ (NScalar 5000) E 0%nat 5000 eq_refl).
Defined.

(** ** Pressure ratio at the cutoff *)


(** ** Candidates of the CAS to Mach solve *)











(** ** Methods that never return normally *)

(** A method that raises whatever the object it runs on. *)
Definition never_ok {S A} (m : PyM S A) : Prop := forall s s' a, m s <> (s', Ok a).

Lemma never_ok_bind_l {S A B} (m : PyM S A) (k : A -> PyM S B) :
  never_ok m -> never_ok (bind m k).
Proof.
  intros Hm s s' b. unfold bind. destruct (m s) as [s1 [a|e]] eqn:E.
  - exfalso. exact (Hm s s1 a E).
  - discriminate.
Qed.

Lemma never_ok_bind_r {S A B} (m : PyM S A) (k : A -> PyM S B) :
  (forall a, never_ok (k a)) -> never_ok (bind m k).
Proof.
  intros Hk s s' b. unfold bind. destruct (m s) as [s1 [a|e]].
  - apply Hk.
  - discriminate.
Qed.

Lemma never_ok_lift {S A} (r : exc A) :
  (forall a, r <> Ok a) -> never_ok (@lift_exc S A r).
Proof. intros Hr s s' a E. injection E as _ E. exact (Hr a E). Qed.

Lemma never_ok_raise {S A} (e : pyexc) : never_ok (@raise S A e).
Proof. intros s s' a E. discriminate. Qed.

Lemma never_ok_snd {S} (m : PyM S unit) (s : S) : never_ok m -> snd (m s) <> Ok tt.
Proof.
  intros Hm E. apply (Hm s (fst (m s)) tt). destruct (m s) as [s1 r]. simpl in *. congruence.
Qed.

Lemma _impact_pressure_not_ok (M p : list R) (q : list R) : _impact_pressure M p <> Ok q.
Proof. unfold _impact_pressure, Phys_gamma_air. discriminate. Qed.

Lemma _q_c_from_M_not_ok (s : FlightCondition) (M q : list R) : _q_c_from_M s M <> Ok q.
Proof.
  unfold _q_c_from_M. destruct (get_p (atm s)); cbn [ebind];
    [apply _impact_pressure_not_ok|discriminate].
Qed.

Lemma _q_c_from_CAS_not_ok (s : FlightCondition) (CAS q : list R) : _q_c_from_CAS s CAS <> Ok q.
Proof.
  unfold _q_c_from_CAS.
  destruct (get_a (_atm0 s)); cbn [ebind]; [|discriminate].
  destruct (get_p (_atm0 s)); cbn [ebind]; [|discriminate].
  destruct (bc _ _ _); cbn [ebind]; [apply _impact_pressure_not_ok|discriminate].
Qed.

Lemma _EAS_from_TAS_not_ok (u : unit) : _EAS_from_TAS <> Ok u.
Proof. discriminate. Qed.

(** The [M] setter raises on every object: [_q_c_from_M] reads
    [Phys.gamma_air]. *)
Lemma set_M_never_ok (M : list R) : never_ok (set_M M).
Proof.
  unfold set_M. cbv zeta.
  apply never_ok_bind_r; intros s.
  apply never_ok_bind_r; intros _.
  apply never_ok_bind_r; intros _.
  apply never_ok_bind_r; intros s1.
  apply never_ok_bind_r; intros TAS.
  apply never_ok_bind_r; intros _.
  apply never_ok_bind_r; intros s2.
  apply never_ok_bind_l, never_ok_lift, _q_c_from_M_not_ok.
Qed.

(** The [TAS] setter raises on every object: it looks up [_EAS_from_TAS]. *)
Lemma set_TAS_never_ok (TAS : list R) : never_ok (set_TAS TAS).
Proof.
  unfold set_TAS. cbv zeta.
  apply never_ok_bind_r; intros s.
  apply never_ok_bind_r; intros _.
  apply never_ok_bind_r; intros _.
  apply never_ok_bind_r; intros s1.
  apply never_ok_bind_r; intros M.
  apply never_ok_bind_r; intros _.
  apply never_ok_bind_l, never_ok_lift, _EAS_from_TAS_not_ok.
Qed.

(** The [CAS] setter raises on every object: [_q_c_from_CAS] reads
    [Phys.gamma_air]. *)
Lemma set_CAS_never_ok (CAS : list R) : never_ok (set_CAS CAS).
Proof.
  unfold set_CAS. cbv zeta.
  apply never_ok_bind_r; intros s.
  apply never_ok_bind_r; intros _.
  apply never_ok_bind_r; intros _.
  apply never_ok_bind_r; intros s1.
  apply never_ok_bind_l, never_ok_lift, _q_c_from_CAS_not_ok.
Qed.

(** [FlightCondition.__init__] raises for every table, altitude and velocity
    input: the velocity assignment raises before the Mach-bounds check. *)
Lemma FlightCondition_init_not_ok (tbl : list layer_row) (Hin : nd) (v : vel_input) :
  snd (FlightCondition_init tbl Hin v) <> Ok tt.
Proof.
  unfold FlightCondition_init. apply never_ok_snd, never_ok_bind_l.
  unfold FlightCondition_init_core.
  apply never_ok_bind_r; intros _.
  apply never_ok_bind_r; intros _.
  apply never_ok_bind_r; intros _.
  destruct v; [apply set_M_never_ok|apply set_TAS_never_ok|apply set_CAS_never_ok
              |apply set_M_never_ok].
Qed.

(** The [FlightCondition.T] setter raises on every object: after the size
    check it reassigns [M], whose setter raises. *)
Lemma fc_set_T_never_ok (T : nd) : never_ok (fc_set_T T).
Proof.
  unfold fc_set_T. apply never_ok_bind_r; intros s.
  destruct (negb _); [apply never_ok_raise|].
  apply never_ok_bind_r; intros _.
  apply never_ok_bind_r; intros s1.
  apply never_ok_bind_r; intros M.
  apply set_M_never_ok.
Qed.

(** ** Temperature override of the atmosphere *)

Lemma run_atm_op_keeps_T (tbl : list layer_row) (o : atm_op) (s : Atmosphere) :
  assigns_H_or_T o = false -> _T (fst (run_atm_op tbl o s)) = _T s.
Proof.
  destruct o as [H|T|p|w|w]; cbn [assigns_H_or_T run_atm_op]; intros E; try discriminate;
    [unfold set_p|unfold set_wdir|unfold set_wspd];
    destruct (negb _); reflexivity.
Qed.

Lemma run_atm_ops_keeps_T (tbl : list layer_row) (os : list atm_op) (s : Atmosphere) :
  Forall (fun o => assigns_H_or_T o = false) os -> _T (run_atm_ops tbl os s) = _T s.
Proof.
  revert s. induction os as [|o os IH]; intros s Hf; [reflexivity|].
  apply Forall_cons_iff in Hf as [Ho Hf]. cbn [run_atm_ops].
  rewrite IH by exact Hf. apply run_atm_op_keeps_T, Ho.
Qed.

(** C1: with a value of the altitude's size, the [Atmosphere] temperature
    setter succeeds, and every later read of [T] returns exactly that value
    through any assignments to [p], [wdir] and [wspd], raising or not, until
    [H] or [T] is assigned again.  The [FlightCondition] temperature setter,
    which stores [T + 200], is never reached on an object: the
    [FlightCondition] constructor raises for every input, and that setter
    itself raises on every object. *)
Theorem T_override_held_until_H_reassigned (tbl : list layer_row) (T : nd) (s : Atmosphere)
    (os : list atm_op) :
  np_size T = np_size (_H s) ->
  Forall (fun o => assigns_H_or_T o = false) os ->
  snd (set_T T s) = Ok tt /\
  get_T (run_atm_ops tbl os (fst (set_T T s))) = Ok T /\
  (forall Hin v, snd (FlightCondition_init tbl Hin v) <> Ok tt) /\
  (forall (T' : nd) (fc : FlightCondition), snd (fc_set_T T' fc) <> Ok tt).
Proof.
  intros E Hf. split; [|split; [|split]].
  - unfold set_T. rewrite E, Nat.eqb_refl. reflexivity.
  - unfold get_T. rewrite run_atm_ops_keeps_T by exact Hf.
    unfold set_T. rewrite E, Nat.eqb_refl. reflexivity.
  - apply FlightCondition_init_not_ok.
  - intros T' fc. apply never_ok_snd, fc_set_T_never_ok.
Qed.

Lemma T_override_held_until_H_reassigned_witness :
  let s := mkAtmosphere (NArr [1%nat] [0]) [0] [] None None None None in
  let os := [OpP (NScalar 101325); OpWdir (NArr [2%nat] [0; 90])] in
  np_size (NScalar 250) = np_size (_H s) /\
  Forall (fun o => assigns_H_or_T o = false) os /\
  get_T (run_atm_ops icao_table os (fst (set_T (NScalar 250) s))) = Ok (NScalar 250).
Proof.
  cbv zeta. split; [reflexivity|]. split; [repeat constructor|].
  exact (proj1 (proj2 (T_override_held_until_H_reassigned icao_table (NScalar 250)
    (mkAtmosphere (NArr [1%nat] [0]) [0] [] None None None None)
    [OpP (NScalar 101325); OpWdir (NArr [2%nat] [0; 90])] eq_refl
    ltac:(repeat constructor)))).
Defined.

(** ** The constructor at sea level *)

Lemma pair_ok {S} (p : S * exc unit) : snd p = Ok tt -> p = (fst p, Ok tt).
Proof. destruct p as [s r]. simpl. intros ->. reflexivity. Qed.

Lemma set_H_sea_level_ok : snd (set_H icao_table (NScalar 0) atm_fresh) = Ok tt.
Proof. unfold set_H, H_min, H_max. decide_R; reflexivity. Qed.

Lemma sea_level_atm_unit : unit_atm sea_level_atm.
Proof.
  unfold sea_level_atm, unit_atm, set_H, H_min, H_max. decide_R.
  do 3 eexists; repeat split; reflexivity.
Qed.

(** The constructor at sea level with one Mach number, up to its bounds
    check, is the [M] setter on [sea_level_fc]. *)
Lemma init_core_sea_level (m : R) :
  FlightCondition_init_core icao_table (NScalar 0) (VelM [m]) fc_fresh = set_M [m] sea_level_fc.
Proof.
  unfold FlightCondition_init_core, fc_set_H, Atmosphere_init, on_atm.
  unfold bind at 1 2 3 4. cbn -[set_M set_H].
  rewrite (pair_ok _ set_H_sea_level_ok).
  reflexivity.
Qed.

(** On an object of one altitude, one layer row and no override, the [M]
    setter with one Mach number raises [AttributeError], at
    [Phys.gamma_air]. *)
Lemma set_M_unit_raises (s : FlightCondition) (m : R) :
  unit_atm (atm s) -> snd (set_M [m] s) = Err AttributeError.
Proof.
  intros (sh & x & r & EH & EL & ET & Ep).
  destruct s as [a a0 M TAS q CAS hold]; simpl in *.
  destruct a as [H h L T p wd ws]; simpl in *; subst.
  reflexivity.
Qed.

Lemma init_sea_level_raises (m : R) :
  snd (FlightCondition_init icao_table (NScalar 0) (VelM [m])) = Err AttributeError.
Proof.
  unfold FlightCondition_init. unfold bind at 1.
  rewrite init_core_sea_level.
  pose proof (set_M_unit_raises sea_level_fc m sea_level_atm_unit) as Hr.
  destruct (set_M [m] sea_level_fc) as [s' r]. simpl in Hr. subst r. reflexivity.
Qed.

(** C2 (code_bug): [FlightCondition.__init__] never returns an object: for
    every table, altitude and velocity input it raises, before it reaches the
    Mach-bounds check.  At sea level, [M = 3] and [M = 3.0001] both raise
    [AttributeError] ([Phys.gamma_air]); neither is accepted nor rejected
    by the bounds check. *)
Theorem flight_condition_init_never_succeeds :
  (forall tbl Hin v, snd (FlightCondition_init tbl Hin v) <> Ok tt) /\
  snd (FlightCondition_init icao_table (NScalar 0) (VelM [3])) = Err AttributeError /\
  snd (FlightCondition_init icao_table (NScalar 0) (VelM [3.0001])) = Err AttributeError.
Proof.
  split; [exact FlightCondition_init_not_ok|].
  split; apply init_sea_level_raises.
Qed.

(** The [FlightCondition.H] setter on an object with a velocity of a
    compatible size reassigns the held velocity quantity, and so raises. *)
Lemma fc_set_H_held_never_ok (tbl : list layer_row) (Hin : nd) (s : FlightCondition) (M : list R) :
  _M s = Some M -> check_compatible_array_size (np_size Hin) (length M) = true ->
  snd (fc_set_H tbl Hin s) <> Ok tt.
Proof.
  intros HM Hc. unfold fc_set_H, on_atm. unfold bind at 1.
  destruct (set_H tbl Hin (atm s)) as [a' [u|e]]; [|discriminate].
  unfold bind at 1, get. cbn [with_atm _M _TAS _CAS _holdconst_vel_var].
  rewrite HM, Hc.
  destruct (_holdconst_vel_var s); apply never_ok_snd.
  - apply set_M_never_ok.
  - apply never_ok_bind_r; intros TAS. apply set_TAS_never_ok.
  - apply never_ok_bind_r; intros CAS. apply set_CAS_never_ok.
Qed.

(** C7 (code_bug): a [FlightCondition] with a held velocity never exists: the
    constructor raises for every input (at sea level with [M = 0.5], an
    [AttributeError]).  And the recomputation the altitude setter would do
    cannot succeed on any object: the [M], [TAS] and [CAS] setters raise on
    every object, so reassigning the altitude of an object with a velocity
    of compatible size raises. *)
Theorem velocity_recomputation_never_succeeds :
  (forall tbl Hin v, snd (FlightCondition_init tbl Hin v) <> Ok tt) /\
  (forall (v : list R) (s : FlightCondition),
     snd (set_M v s) <> Ok tt /\ snd (set_TAS v s) <> Ok tt /\ snd (set_CAS v s) <> Ok tt) /\
  (forall tbl Hin (s : FlightCondition) M,
     _M s = Some M -> check_compatible_array_size (np_size Hin) (length M) = true ->
     snd (fc_set_H tbl Hin s) <> Ok tt) /\
  snd (FlightCondition_init icao_table (NScalar 0) (VelM [1 / 2])) = Err AttributeError.
Proof.
  split; [exact FlightCondition_init_not_ok|].
  split; [|split; [exact fc_set_H_held_never_ok|apply init_sea_level_raises]].
  intros v s. split; [|split]; apply never_ok_snd;
    [apply set_M_never_ok|apply set_TAS_never_ok|apply set_CAS_never_ok].
Qed.

(** ** The pressure ratio just above the cutoff *)


(** ** Helpers on the altitude setter *)

Lemma nd_data_atleast_1d (Hin : nd) : nd_data (atleast_1d Hin) = nd_data Hin.
Proof. destruct Hin as [x|[|n sh] d]; reflexivity. Qed.

(** Whether a [Atmosphere.H] setter succeeds does not depend on the object. *)
Lemma set_H_result_indep (tbl : list layer_row) (Hin : nd) (s s' : Atmosphere) :
  snd (set_H tbl Hin s) = snd (set_H tbl Hin s').
Proof.
  unfold set_H.
  destruct (Nat.ltb 1 (ndim (atleast_1d Hin))); [reflexivity|].
  destruct (existsb _ _); [reflexivity|].
  run_py. destruct (Layer _ _); reflexivity.
Qed.

(** ** Further properties of the atmosphere *)

Lemma existsb_false_In {A} (f : A -> bool) (l : list A) (x : A) :
  existsb f l = false -> In x l -> f x = false.
Proof.
  intros E Hin. destruct (f x) eqn:Fx; [|reflexivity].
  assert (existsb f l = true) by (apply existsb_exists; eauto). congruence.
Qed.

(** What a successful [Atmosphere.H] setter leaves in the object, in full. *)
Lemma set_H_ok_state (tbl : list layer_row) (Hin : nd) (s s' : Atmosphere) :
  set_H tbl Hin s = (s', Ok tt) ->
  (ndim (atleast_1d Hin) <= 1)%nat /\
  existsb (fun x => Rltb x (H_min tbl) || Rltb (H_max tbl) x) (nd_data Hin) = false /\
  exists rows, Layer tbl (nd_data Hin) = Ok rows /\
    s' = mkAtmosphere (atleast_1d Hin) (map h_from_H (nd_data Hin)) rows None None None None.
Proof.
  intros Hset. unfold set_H in Hset.
  destruct (Nat.ltb 1 (ndim (atleast_1d Hin))) eqn:Hd; [discriminate|].
  rewrite nd_data_atleast_1d in Hset.
  destruct (existsb _ _) eqn:Hx; [discriminate|].
  run_py.
  destruct (Layer tbl (nd_data Hin)) as [rows|e] eqn:HL; cbn in Hset; [|discriminate].
  inversion Hset; subst s'; clear Hset.
  split; [apply Nat.ltb_ge, Hd|]. split; [reflexivity|].
  exists rows. split; reflexivity.
Qed.

(** X1: the geometric/geopotential altitude conversions are inverse to each
    other wherever their denominators are not zero. *)
Theorem altitude_conversions_round_trip (H h : R) :
  H <> R_earth -> h <> - R_earth ->
  H_from_h (h_from_H H) = H /\ h_from_H (H_from_h h) = h.
Proof.
  intros HH Hh. unfold H_from_h, h_from_H.
  assert (R_earth - H <> 0) by lra.
  assert (R_earth + h <> 0) by lra.
  assert (R_earth <> 0) by (unfold R_earth; lra).
  split; field; repeat split; try assumption.
  - intros C. apply H0. unfold R_earth in *. nra.
  - intros C. apply H1. unfold R_earth in *. nra.
Qed.

Lemma altitude_conversions_round_trip_witness :
  11000 <> R_earth /\ 11000 <> - R_earth /\
  H_from_h (h_from_H 11000) = 11000 /\ h_from_H (H_from_h 11000) = 11000.
Proof.
  assert (A : 11000 <> R_earth) by (unfold R_earth; lra).
  assert (B : 11000 <> - R_earth) by (unfold R_earth; lra).
  split; [exact A|]. split; [exact B|].
  exact (altitude_conversions_round_trip 11000 11000 A B).
Defined.

(** X2: after a successful altitude assignment, on a table whose top layer
    base is below the Earth radius, the gravity getter at each altitude [H]
    of the input is [g_0*(1 - H/R_earth)^2]. *)
Theorem g_after_set_H (tbl : list layer_row) (Hin : nd) (s s' : Atmosphere) :
  H_max tbl < R_earth -> set_H tbl Hin s = (s', Ok tt) ->
  get_g s' = map (fun H => g * (1 - H / R_earth) ^ 2) (nd_data Hin).
Proof.
  intros Hlt Hset.
  destruct (set_H_ok_state _ _ _ _ Hset) as [_ [Hx [rows [_ ->]]]].
  unfold get_g. cbn [_h]. rewrite map_map. apply map_ext_in.
  intros x Hin'. pose proof (existsb_false_In _ _ _ Hx Hin') as Fx.
  apply orb_false_iff in Fx as [_ F2].
  unfold Rltb in F2. destruct (Rlt_dec (H_max tbl) x) as [|Hle]; [discriminate|].
  apply Rnot_lt_le in Hle.
  assert (R_earth - x <> 0) by lra.
  assert (R_earth <> 0) by (unfold R_earth; lra).
  unfold h_from_H. f_equal.
  replace (R_earth + R_earth * x / (R_earth - x)) with (R_earth * R_earth / (R_earth - x))
    by (field; assumption).
  f_equal. field. split; assumption.
Qed.

Lemma g_after_set_H_witness :
  H_max icao_table < R_earth /\ set_H icao_table (NScalar 0) atm_fresh = (sea_level_atm, Ok tt) /\
  get_g sea_level_atm = [g * (1 - 0 / R_earth) ^ 2].
Proof.
  assert (A : H_max icao_table < R_earth) by (unfold H_max, R_earth; cbn; lra).
  assert (B : set_H icao_table (NScalar 0) atm_fresh = (sea_level_atm, Ok tt))
    by exact (pair_ok _ set_H_sea_level_ok).
  split; [exact A|]. split; [exact B|].
  exact (g_after_set_H icao_table (NScalar 0) atm_fresh sea_level_atm A B).
Defined.



(** X4: with a value of the altitude's size, each wind setter succeeds, its
    getter then returns that value, and the other wind quantity, the
    temperature and the pressure read as before. *)
Theorem wind_setters_round_trip (w : nd) (s : Atmosphere) :
  np_size w = np_size (_H s) ->
  let s1 := fst (set_wdir w s) in
  let s2 := fst (set_wspd w s) in
  (snd (set_wdir w s) = Ok tt /\ get_wdir s1 = Ok w /\
   get_wspd s1 = get_wspd s /\ get_T s1 = get_T s /\ get_p s1 = get_p s) /\
  (snd (set_wspd w s) = Ok tt /\ get_wspd s2 = Ok w /\
   get_wdir s2 = get_wdir s /\ get_T s2 = get_T s /\ get_p s2 = get_p s).
Proof.
  intros E. cbv zeta. unfold set_wdir, set_wspd. rewrite E, Nat.eqb_refl. cbn [negb fst snd].
  destruct s as [H h L T p wd ws].
  split; repeat split; reflexivity.
Qed.

Lemma wind_setters_round_trip_witness :
  let s := mkAtmosphere (NArr [1%nat] [0]) [0] [] None None None None in
  np_size (NScalar 270) = np_size (_H s) /\
  get_wdir (fst (set_wdir (NScalar 270) s)) = Ok (NScalar 270).
Proof.
  cbv zeta. split; [reflexivity|].
  exact (proj1 (proj2 (proj1 (wind_setters_round_trip (NScalar 270)
    (mkAtmosphere (NArr [1%nat] [0]) [0] [] None None None None) eq_refl)))).
Defined.

(** X5: after a successful altitude assignment (and so right after
    [Atmosphere.__init__]), reading the wind direction or the wind speed
    raises [AttributeError]: the setter has cleared the overrides and the
    fallbacks [Atmo.wdir_0] and [Atmo.wpsd_0] do not exist. *)
Theorem wind_getters_raise_after_set_H (tbl : list layer_row) (Hin : nd) (s s' : Atmosphere) :
  set_H tbl Hin s = (s', Ok tt) ->
  get_wdir s' = Err AttributeError /\ get_wspd s' = Err AttributeError.
Proof.
  intros Hset. destruct (set_H_ok_state _ _ _ _ Hset) as [_ [_ [rows [_ ->]]]].
  split; reflexivity.
Qed.

Lemma wind_getters_raise_after_set_H_witness :
  set_H icao_table (NScalar 0) atm_fresh = (sea_level_atm, Ok tt) /\
  get_wdir sea_level_atm = Err AttributeError.
Proof.
  assert (B : set_H icao_table (NScalar 0) atm_fresh = (sea_level_atm, Ok tt))
    by exact (pair_ok _ set_H_sea_level_ok).
  split; [exact B|].
  exact (proj1 (wind_getters_raise_after_set_H icao_table (NScalar 0) atm_fresh sea_level_atm B)).
Defined.

(** X6: a successful altitude assignment leaves exactly the object that
    [Atmosphere(H)] builds: the earlier altitude and every earlier override
    of temperature, pressure and wind are discarded. *)
Theorem set_H_discards_previous_state (tbl : list layer_row) (Hin : nd) (s s' : Atmosphere) :
  set_H tbl Hin s = (s', Ok tt) -> Atmosphere_init tbl Hin = (s', Ok tt).
Proof.
  intros Hset. destruct (set_H_ok_state _ _ _ _ Hset) as [Hd [Hx [rows [HL ->]]]].
  unfold Atmosphere_init, set_H. apply Nat.ltb_ge in Hd. rewrite Hd.
  rewrite nd_data_atleast_1d, Hx. run_py. rewrite HL. reflexivity.
Qed.

Lemma set_H_discards_previous_state_witness :
  let s := set_T_field (Some (NScalar 300)) sea_level_atm in
  set_H icao_table (NScalar 0) s = (fst (set_H icao_table (NScalar 0) s), Ok tt) /\
  Atmosphere_init icao_table (NScalar 0) = (fst (set_H icao_table (NScalar 0) s), Ok tt).
Proof.
  cbv zeta.
  assert (B : set_H icao_table (NScalar 0) (set_T_field (Some (NScalar 300)) sea_level_atm)
              = (fst (set_H icao_table (NScalar 0) (set_T_field (Some (NScalar 300)) sea_level_atm)), Ok tt)).
  { apply pair_ok. rewrite (set_H_result_indep _ _ _ atm_fresh). exact set_H_sea_level_ok. }
  split; [exact B|]. exact (set_H_discards_previous_state _ _ _ _ B).
Defined.

(** [Layer._layer_idx] finds no layer exactly outside
    [H_base[0] <= H < H_base[-1]], on a table with non-decreasing bases. *)
Lemma layer_idx_from_None_iff (rows : list layer_row) (i : nat) (H : R) :
  bases_sorted rows ->
  layer_idx_from i rows H = None <-> ~ (H_base (hd row0 rows) <= H < H_base (last rows row0)).
Proof.
  revert i; induction rows as [|r0 rows IH]; intros i Hs.
  - cbn. split; [intros _; lra|reflexivity].
  - destruct rows as [|r1 rows].
    + cbn. split; [intros _; lra|reflexivity].
    + destruct Hs as [H01 Hs].
      pose proof (bases_sorted_le_last (r1 :: rows) Hs r1 (or_introl eq_refl)) as Hl.
      change (last (r0 :: r1 :: rows) row0) with (last (r1 :: rows) row0) in *.
      specialize (IH (S i) Hs). cbn [hd] in *.
      cbn [layer_idx_from].
      destruct (Rle_dec (H_base r0) H) as [Ha|Ha].
      * rewrite (Rleb_true _ _ Ha).
        destruct (Rlt_dec H (H_base r1)) as [Hb|Hb].
        -- rewrite (Rltb_true _ _ Hb). cbn [andb]. split; [discriminate|].
           intros C; exfalso; apply C; lra.
        -- rewrite (Rltb_false _ _ (Rnot_lt_le _ _ Hb)). cbn [andb]. rewrite IH.
           split; intros C D; apply C; lra.
      * rewrite (Rleb_false _ _ (Rnot_le_lt _ _ Ha)). cbn [andb]. rewrite IH.
        split; intros _ D; lra.
Qed.

Lemma Layer_ok_iff (tbl : list layer_row) (Hs : list R) :
  bases_sorted tbl ->
  (exists rows, Layer tbl Hs = Ok rows) <-> Forall (fun x => H_min tbl <= x < H_max tbl) Hs.
Proof.
  intros Hsort. induction Hs as [|x Hs IH]; cbn [Layer].
  - split; [intros _; constructor|eauto].
  - unfold layer_idx. rewrite Forall_cons_iff. rewrite <- IH.
    pose proof (layer_idx_from_None_iff tbl 0 x Hsort) as Hn.
    unfold H_min, H_max.
    destruct (layer_idx_from 0 tbl x) as [j|] eqn:Hj.
    + destruct (Layer tbl Hs) as [rows|e]; cbn.
      * split; [intros _; split; [|eauto]|eauto].
        destruct (Rle_dec (H_base (hd row0 tbl)) x);
          destruct (Rlt_dec x (H_base (last tbl row0))); try (split; assumption);
          exfalso; assert (C : Some j = None) by (apply Hn; lra); discriminate.
      * split; [intros [rows E]; discriminate|intros [_ [rows E]]; discriminate].
    + split; [intros [rows E]; discriminate|].
      intros [Hx _]. exfalso. apply (proj1 Hn eq_refl). exact Hx.
Qed.

(** [Layer] fails only with [ValueError]. *)
Lemma Layer_err (tbl : list layer_row) (Hs : list R) (e : pyexc) :
  Layer tbl Hs = Err e -> e = ValueError.
Proof.
  revert e. induction Hs as [|x Hs IH]; intros e; cbn [Layer]; [discriminate|].
  destruct (layer_idx tbl x); [|congruence].
  intros E. destruct (Layer tbl Hs) as [rows|e0] eqn:EL; cbn in E; [discriminate|].
  injection E as <-. exact (IH _ eq_refl).
Qed.

(** The [Atmosphere.H] setter raises [TypeError] exactly on an input of more
    than one dimension, and otherwise succeeds or raises [ValueError]. *)
Lemma set_H_outcome (tbl : list layer_row) (Hin : nd) (s : Atmosphere) :
  (snd (set_H tbl Hin s) = Err TypeError <-> (1 < ndim (atleast_1d Hin))%nat) /\
  (snd (set_H tbl Hin s) = Ok tt \/ snd (set_H tbl Hin s) = Err TypeError \/
   snd (set_H tbl Hin s) = Err ValueError).
Proof.
  unfold set_H. destruct (Nat.ltb 1 (ndim (atleast_1d Hin))) eqn:Hd.
  - apply Nat.ltb_lt in Hd. cbn.
    split; [split; [intros _; exact Hd|reflexivity]|right; left; reflexivity].
  - apply Nat.ltb_ge in Hd. destruct (existsb _ _).
    + cbn. split; [split; [discriminate|lia]|right; right; reflexivity].
    + run_py. destruct (Layer tbl _) as [rows|e] eqn:EL; cbn.
      * split; [split; [discriminate|lia]|left; reflexivity].
      * apply Layer_err in EL. subst e.
        split; [split; [discriminate|lia]|right; right; reflexivity].
Qed.

(** X7: on a table with non-decreasing layer bases, the [Atmosphere.H]
    setter succeeds exactly when the input is at most one-dimensional and
    every altitude lies in [H_base[0] <= H < H_base[-1]]; it raises
    [TypeError] exactly when the input has more than one dimension, and in
    every other case it raises [ValueError]. *)
Theorem set_H_succeeds_iff (tbl : list layer_row) (Hin : nd) (s : Atmosphere) :
  bases_sorted tbl ->
  (snd (set_H tbl Hin s) = Ok tt <->
   (ndim (atleast_1d Hin) <= 1)%nat /\ Forall (fun x => H_min tbl <= x < H_max tbl) (nd_data Hin)) /\
  (snd (set_H tbl Hin s) = Err TypeError <-> (1 < ndim (atleast_1d Hin))%nat) /\
  (snd (set_H tbl Hin s) = Ok tt \/ snd (set_H tbl Hin s) = Err TypeError \/
   snd (set_H tbl Hin s) = Err ValueError).
Proof.
  intros Hsort. split; [|apply set_H_outcome].
  rewrite <- (Layer_ok_iff _ _ Hsort). unfold set_H.
  destruct (Nat.ltb 1 (ndim (atleast_1d Hin))) eqn:Hd.
  - apply Nat.ltb_lt in Hd. cbn. split; [discriminate|intros [C _]; lia].
  - apply Nat.ltb_ge in Hd. rewrite nd_data_atleast_1d.
    destruct (existsb _ _) eqn:Hx.
    + cbn. split; [discriminate|]. intros [_ HL]. exfalso.
      apply existsb_exists in Hx as [x [Hin' Fx]].
      apply (Layer_ok_iff _ _ Hsort) in HL. rewrite Forall_forall in HL.
      destruct (HL x Hin') as [A B].
      apply orb_true_iff in Fx as [F|F]; unfold Rltb in F;
        destruct (Rlt_dec _ _); try discriminate; lra.
    + run_py. destruct (Layer tbl (nd_data Hin)) as [rows|e]; cbn.
      * split; [intros _; split; [exact Hd|eauto]|reflexivity].
      * split; [discriminate|intros [_ [rows E]]; discriminate].
Qed.

Lemma set_H_succeeds_iff_witness :
  let Hin := NArr [2%nat] [0; 79999] in
  bases_sorted icao_table /\
  (snd (set_H icao_table Hin atm_fresh) = Ok tt <->
   (ndim (atleast_1d Hin) <= 1)%nat /\
   Forall (fun x => H_min icao_table <= x < H_max icao_table) (nd_data Hin)) /\
  (snd (set_H icao_table Hin atm_fresh) = Err TypeError <-> (1 < ndim (atleast_1d Hin))%nat) /\
  (snd (set_H icao_table Hin atm_fresh) = Ok tt \/
   snd (set_H icao_table Hin atm_fresh) = Err TypeError \/
   snd (set_H icao_table Hin atm_fresh) = Err ValueError).
Proof.
  cbv zeta.
  assert (Hs : bases_sorted icao_table) by (cbn; repeat split; lra).
  split; [exact Hs|]. exact (set_H_succeeds_iff _ _ atm_fresh Hs).
Defined.

(** X8: each table row that [Layer] returns is the row of a layer that
    contains the corresponding altitude: [H_base[j] <= H < H_base[j+1]] for
    that row [j] and the next one. *)
Theorem Layer_rows_bracket (tbl : list layer_row) (Hs : list R) (rows : list layer_row) :
  Layer tbl Hs = Ok rows ->
  length rows = length Hs /\
  forall k Hk r, nth_error Hs k = Some Hk -> nth_error rows k = Some r ->
    exists j r', nth_error tbl j = Some r /\ nth_error tbl (S j) = Some r' /\
      H_base r <= Hk < H_base r'.
Proof.
  intros HL. destruct (Layer_spec _ _ _ HL) as [Hlen Hnth].
  split; [exact Hlen|]. intros k Hk r E1 E2.
  destruct (Hnth k Hk E1) as [j [Hj Ej]].
  rewrite E2 in Ej. injection Ej as ->.
  destruct (layer_idx_from_spec _ 0 j Hk Hj) as [_ [r [r' [F1 [F2 F3]]]]].
  rewrite Nat.sub_0_r in F1, F2.
  exists j, r'. split; [|split; [exact F2|]].
  - rewrite F1. f_equal. symmetry. apply nth_error_nth, F1.
  - rewrite (nth_error_nth _ _ row0 F1). exact F3.
Qed.

Lemma Layer_rows_bracket_witness :
  Layer icao_table [5000] = Ok [mk_layer_row 0 288.15 (-0.0065) 101325] /\
  length [mk_layer_row 0 288.15 (-0.0065) 101325] = length [5000].
Proof.
  assert (HL : Layer icao_table [5000] = Ok [mk_layer_row 0 288.15 (-0.0065) 101325])
    by (cbn; unfold layer_idx; decide_R; reflexivity).
  split; [exact HL|]. exact (proj1 (Layer_rows_bracket _ _ _ HL)).
Defined.




(** ** Further properties of the airspeed conversions *)










(** X19: with a value of the altitude's size, the temperature and pressure
    setters succeed and their getters then return that value; setting the
    pressure leaves the temperature as it reads before. *)
Theorem T_p_setters_round_trip (v : nd) (s : Atmosphere) :
  np_size v = np_size (_H s) ->
  snd (set_T v s) = Ok tt /\ get_T (fst (set_T v s)) = Ok v /\
  snd (set_p v s) = Ok tt /\ get_p (fst (set_p v s)) = Ok v /\
  get_T (fst (set_p v s)) = get_T s.
Proof.
  intros E. unfold set_T, set_p. rewrite E, Nat.eqb_refl. cbn [negb fst snd].
  destruct s as [H h L T p wd ws]. repeat split; reflexivity.
Qed.

Lemma T_p_setters_round_trip_witness :
  let s := mkAtmosphere (NArr [1%nat] [0]) [0] [] None None None None in
  np_size (NScalar 250) = np_size (_H s) /\
  get_T (fst (set_T (NScalar 250) s)) = Ok (NScalar 250).
Proof.
  cbv zeta. split; [reflexivity|].
  exact (proj1 (proj2 (T_p_setters_round_trip (NScalar 250)
    (mkAtmosphere (NArr [1%nat] [0]) [0] [] None None None None) eq_refl))).
Defined.
